(** * The RSS endpoint of the Yukina blog ([src/pages/rss.xml.ts])

    The endpoint [GET] awaits the "posts" content collection, maps every
    collection entry to a feed item with an object literal, and hands the
    resulting options object to [rss] of [@astrojs/rss].

    The development embeds the object literals as they are written: a feed
    item is a JavaScript object, i.e. an ordered list of named properties
    whose values may be [undefined]; the content store read by
    [getCollection] is threaded through a state monad. *)

From Stdlib Require Import String List ZArith.
From ExtLib Require Import Structures.Monad Structures.MonadState.
From ExtLib Require Import Data.Monads.StateMonad.
Import ListNotations.
Import MonadNotation.
Local Open Scope string_scope.
Local Open Scope monad_scope.

Set Warnings "-register-all".

(** ** JavaScript values held by a feed item *)

Module Js.

(** A [Date] is its time value: milliseconds since the epoch, UTC. *)
Definition Date : Type := Z.

Inductive value : Type :=
| undefined
| str (s : string)
| date (d : Date)
| arr (elems : list value).

(** An object literal: its own properties in insertion order. *)
Definition object : Type := list (string * value).

Definition keys (o : object) : list string := map fst o.

(** Own-property lookup; [None] when the object has no such property
    (which differs from a property that holds [undefined]). *)
Fixpoint prop (k : string) (o : object) : option value :=
  match o with
  | [] => None
  | (k', v) :: o' => if String.eqb k k' then Some v else prop k o'
  end.

(** Reading an optional string field: absent fields read as [undefined]. *)
Definition of_opt (x : option string) : value :=
  match x with
  | Some s => str s
  | None => undefined
  end.

End Js.

(** ** Site configuration ([yukina.config.ts]) *)

Module Config.

Record SocialLink := { icon : string; link : string }.
Record License := { name : string; url : string }.

Inductive SlugMode := RAW | HASH.
Inductive BannerStyle := LOOP | STATIC | HIDDEN.

(** The fields of [Configuration] set by [YukinaConfig], except
    [navigators], whose name keys come from [src/locales/keys]. *)
Record Configuration := {
  title : string;
  subTitle : string;
  brandTitle : string;
  description : string;
  site : string;
  locale : string;
  username : string;
  sign : string;
  avatarUrl : string;
  socialLinks : list SocialLink;
  maxSidebarCategoryChip : nat;
  maxSidebarTagChip : nat;
  maxFooterCategoryChip : nat;
  maxFooterTagChip : nat;
  banners : list string;
  slugMode : SlugMode;
  license : License;
  bannerStyle : BannerStyle
}.

Definition YukinaConfig : Configuration := {|
  title := "Hamim's Blog";
  subTitle := "Thoughts, Code & Creativity";
  brandTitle := "Home";
  description := "Personal blog by Hamim – covering code, backend architecture, frontend ideas, and tech insights.";
  site := "https://seracoder.com";
  locale := "en";
  username := "Hamim";
  sign := "Solo Developer | Python & JS | FastAPI, Django, Next.js, Svelte";
  avatarUrl := "/avater-2.png";
  socialLinks :=
    [ {| icon := "line-md:github-loop"; link := "https://github.com/seracoder" |};
      {| icon := "mingcute:linkedin-line"; link := "https://www.linkedin.com/in/md-hamim/" |};
      {| icon := "mingcute:world-2-line"; link := "https://mdhamim.com" |} ];
  maxSidebarCategoryChip := 6;
  maxSidebarTagChip := 12;
  maxFooterCategoryChip := 6;
  maxFooterTagChip := 24;
  banners :=
    [ "https://s2.loli.net/2025/01/25/PBvHFjr5yDu6t4a.webp";
      "https://s2.loli.net/2025/01/25/6bKcwHZigzlM4mJ.webp";
      "https://s2.loli.net/2025/01/25/H9WgEK6qNTcpFiS.webp";
      "https://s2.loli.net/2025/01/25/njNVtuUMzxs81RI.webp";
      "https://s2.loli.net/2025/01/25/tozsJ8QHAjFN3Mm.webp";
      "https://s2.loli.net/2025/01/25/Pm89OveZq7NWUxF.webp";
      "https://s2.loli.net/2025/01/25/UCYKvc1ZhgPHB9m.webp";
      "https://s2.loli.net/2025/01/25/JjpLOW8VSmufzlA.webp" ];
  slugMode := RAW;
  license := {| name := "CC BY-NC-SA 4.0";
                url := "https://creativecommons.org/licenses/by-nc-sa/4.0/" |};
  bannerStyle := LOOP
|}.

End Config.

(** ** The posts collection *)

Module Content.

(** Modelled from the spec: the schema of the posts collection (the
    content configuration of the site) is not among the sources.  The
    fields are those of the post record of the data model, with [author],
    [draft] and [cover] as they appear in the front matter of the posts;
    [category] and [tags] are optional, and so is whatever the data model
    does not list. *)
Record PostData := {
  title : string;
  published : Js.Date;
  description : string;
  tags : option (list string);
  category : option string;
  author : option string;
  draft : bool;
  cover : option string
}.

Record CollectionEntry := {
  id : string;
  data : PostData
}.

(** What [getCollection] reads: the entries stored under each
    collection name, in the order the store hands them out. *)
Record Store := { collections : string -> list CollectionEntry }.

End Content.

(** ** The endpoint *)

Module Rss.

(** The options object passed to [rss]: the feed document before it is
    serialised. *)
Record RSSOptions := {
  title : string;
  description : string;
  site : string;
  items : list Js.object
}.

End Rss.

(** The request context: [{ site: string }]. *)
Record APIContext := { site : string }.

(** [await getCollection(name)]: reads the store and leaves it as it is. *)
Definition getCollection (name : string)
  : state Content.Store (list Content.CollectionEntry) :=
  gets (fun st => Content.collections st name).

(** The arrow function given to [posts.map]. *)
Definition toItem (post : Content.CollectionEntry) : Js.object :=
  let data := Content.data post in
  [ ("title", Js.str (Content.title data));
    ("pubDate", Js.date (Content.published data));
    ("link", Js.str ("/posts/" ++ Content.id post));
    ("description", Js.str (Content.description data));
    ("category", Js.of_opt (Content.category data));
    ("author", Js.of_opt (Content.author data));
    ("categories",
      (* any array is truthy, the empty one too *)
      match Content.tags data with
      | Some tags =>
          Js.arr (Js.of_opt (Content.category data) :: map Js.str tags)
      | None => Js.arr [Js.of_opt (Content.category data)]
      end) ].

(** The object literal of [GET], for the posts it has fetched. *)
Definition feed (context : APIContext) (posts : list Content.CollectionEntry)
  : Rss.RSSOptions :=
  {| Rss.title := "a";
     Rss.description := "a";
     Rss.site := site context;
     Rss.items := map toItem posts |}.

Section Endpoint.

(** [rss] of [@astrojs/rss] turns the options into the response; it is
    a library function, kept abstract. *)
Variable Response : Type.
Variable rss : Rss.RSSOptions -> Response.

Definition GET (context : APIContext) : state Content.Store Response :=
  posts <- getCollection "posts" ;;
  ret (rss (feed context posts)).

End Endpoint.

(** ** Sample inputs *)

Module Samples.

(** Front matter of
    [src/contents/posts/a-comprehensive-guide-to-python-threading.md]. *)
Definition threading : Content.CollectionEntry := {|
  Content.id := "a-comprehensive-guide-to-python-threading";
  Content.data := {|
    Content.title := "A Comprehensive Guide to Python Threading";
    Content.published := 1703721600000%Z;
    Content.description := "A comprehensive guide to Python threading, covering the basics, synchronization, communication, thread safety, advanced concepts, and real-world examples.";
    Content.tags := Some ["threading"; "concurrency"];
    Content.category := Some "Python";
    Content.author := Some "Md hamim";
    Content.draft := false;
    Content.cover := Some "/covers/python-threading.webp" |} |}.

(** Front matter of
    [src/contents/posts/adding-rapidoc-documentation-to-your-fastapi-application.md]. *)
Definition rapidoc : Content.CollectionEntry := {|
  Content.id := "adding-rapidoc-documentation-to-your-fastapi-application";
  Content.data := {|
    Content.title := "Adding RapiDoc Documentation to FastAPI";
    Content.published := 1746403200000%Z;
    Content.description := "Enhance your FastAPI documentation with RapiDoc";
    Content.tags := Some ["fastapi"; "rapidoc"];
    Content.category := Some "Python";
    Content.author := Some "Md hamim";
    Content.draft := false;
    Content.cover := Some "/covers/rapidoc-fastapi.webp" |} |}.

(** The two records of the example scenario: the first has tags, the
    second has none. *)
Definition postA : Content.CollectionEntry := {|
  Content.id := "a";
  Content.data := {|
    Content.title := "Post A";
    Content.published := 1704067200000%Z;
    Content.description := "Desc A";
    Content.tags := Some ["x"; "y"];
    Content.category := Some "Python";
    Content.author := None;
    Content.draft := false;
    Content.cover := None |} |}.

Definition postB : Content.CollectionEntry := {|
  Content.id := "b";
  Content.data := {|
    Content.title := "Post B";
    Content.published := 1706745600000%Z;
    Content.description := "Desc B";
    Content.tags := None;
    Content.category := Some "JS";
    Content.author := None;
    Content.draft := false;
    Content.cover := None |} |}.

(** A record with an empty tag list, and a malformed one without a
    category. *)
Definition untagged : Content.CollectionEntry := {|
  Content.id := "c";
  Content.data := {|
    Content.title := "Post C";
    Content.published := 1706745600000%Z;
    Content.description := "Desc C";
    Content.tags := Some [];
    Content.category := Some "JS";
    Content.author := None;
    Content.draft := false;
    Content.cover := None |} |}.


(** [postA] as an unpublished draft with a cover image. *)
Definition postA_draft : Content.CollectionEntry := {|
  Content.id := "a";
  Content.data := {|
    Content.title := "Post A";
    Content.published := 1704067200000%Z;
    Content.description := "Desc A";
    Content.tags := Some ["x"; "y"];
    Content.category := Some "Python";
    Content.author := None;
    Content.draft := true;
    Content.cover := Some "/covers/a.webp" |} |}.

Definition production : APIContext := {| site := "https://seracoder.com" |}.
Definition preview : APIContext := {| site := "http://localhost:4321" |}.

Definition store (posts : list Content.CollectionEntry) : Content.Store :=
  {| Content.collections := fun name =>
       if String.eqb name "posts" then posts else [] |}.

End Samples.

(** ** Two records that differ at most in [draft] and [cover] *)

Definition same_but_draft_cover (p q : Content.CollectionEntry) : Prop :=
  Content.id p = Content.id q
  /\ Content.title (Content.data p) = Content.title (Content.data q)
  /\ Content.published (Content.data p) = Content.published (Content.data q)
  /\ Content.description (Content.data p) = Content.description (Content.data q)
  /\ Content.tags (Content.data p) = Content.tags (Content.data q)
  /\ Content.category (Content.data p) = Content.category (Content.data q)
  /\ Content.author (Content.data p) = Content.author (Content.data q).

(** The field list the specification gives for a feed item, and the one
    the object literal has. *)
Definition listed_fields : list string :=
  ["title"; "pubDate"; "link"; "description"; "category"; "categories"].

Definition item_fields : list string :=
  ["title"; "pubDate"; "link"; "description"; "category"; "author";
   "categories"].

(** ** Entries that point at a given post *)

(** Whether the [link] of an entry is the page of the post with id [x]. *)
Definition links_to (x : string) (e : Js.object) : bool :=
  match Js.prop "link" e with
  | Some (Js.str l) => String.eqb l ("/posts/" ++ x)
  | _ => false
  end.

(** ** What a feed item shows of a record *)

(** The tags an item lists after the category: those of the record, none
    when the record has no [tags] field. *)
Definition tag_list (r : Content.CollectionEntry) : list string :=
  match Content.tags (Content.data r) with
  | Some ts => ts
  | None => []
  end.

(** Two records that agree on everything the arrow function reads, with
    an absent tag list counted as an empty one. *)
Definition same_in_feed (p q : Content.CollectionEntry) : Prop :=
  Content.id p = Content.id q
  /\ Content.title (Content.data p) = Content.title (Content.data q)
  /\ Content.published (Content.data p) = Content.published (Content.data q)
  /\ Content.description (Content.data p) = Content.description (Content.data q)
  /\ tag_list p = tag_list q
  /\ Content.category (Content.data p) = Content.category (Content.data q)
  /\ Content.author (Content.data p) = Content.author (Content.data q).

Module MoreSamples.

(** A record whose category is also one of its tags. *)
Definition tagged_twice : Content.CollectionEntry := {|
  Content.id := "e";
  Content.data := {|
    Content.title := "Post E";
    Content.published := 1706745600000%Z;
    Content.description := "Desc E";
    Content.tags := Some ["Python"; "x"];
    Content.category := Some "Python";
    Content.author := Some "Md hamim";
    Content.draft := false;
    Content.cover := None |} |}.

(** A store that holds the scenario posts and, beside them, a second
    collection the endpoint never asks for. *)
Definition store_with_pages : Content.Store :=
  {| Content.collections := fun name =>
       if String.eqb name "posts" then [Samples.postA; Samples.postB]
       else if String.eqb name "pages" then [Samples.untagged]
       else [] |}.

End MoreSamples.

(** ** Running the endpoint *)

Example feed_of_scenario :
  Rss.items (feed Samples.production [Samples.postA; Samples.postB]) =
  [ [ ("title", Js.str "Post A"); ("pubDate", Js.date 1704067200000%Z);
      ("link", Js.str "/posts/a"); ("description", Js.str "Desc A");
      ("category", Js.str "Python"); ("author", Js.undefined);
      ("categories", Js.arr [Js.str "Python"; Js.str "x"; Js.str "y"]) ];
    [ ("title", Js.str "Post B"); ("pubDate", Js.date 1706745600000%Z);
      ("link", Js.str "/posts/b"); ("description", Js.str "Desc B");
      ("category", Js.str "JS"); ("author", Js.undefined);
      ("categories", Js.arr [Js.str "JS"]) ] ].
Proof. reflexivity. Qed.

(** [GET] answers with [rss] applied to the feed of the stored posts and
    leaves the store untouched. *)
Lemma GET_run (Response : Type) (rss : Rss.RSSOptions -> Response)
    (context : APIContext) (st : Content.Store) :
  runState (GET Response rss context) st =
  (rss (feed context (Content.collections st "posts")), st).
Proof. reflexivity. Qed.

Example GET_of_scenario :
  runState (GET Rss.RSSOptions (fun options => options) Samples.production)
           (Samples.store [Samples.postA; Samples.postB])
  = (feed Samples.production [Samples.postA; Samples.postB],
     Samples.store [Samples.postA; Samples.postB]).
Proof. reflexivity. Qed.

Lemma items_nth (context : APIContext) (posts : list Content.CollectionEntry)
    (i : nat) :
  nth_error (Rss.items (feed context posts)) i =
  option_map toItem (nth_error posts i).
Proof. unfold feed; simpl. apply nth_error_map. Qed.

Lemma item_at (context : APIContext) (posts : list Content.CollectionEntry)
    (i : nat) (r : Content.CollectionEntry) :
  nth_error posts i = Some r ->
  nth_error (Rss.items (feed context posts)) i = Some (toItem r).
Proof. intros H. rewrite items_nth, H. reflexivity. Qed.

(** ** Categories of an item *)

(** C1: a record with a non-empty tag list [t1, t2, ...] yields the entry
    whose [categories] is the record's category followed by the tags in
    their order. *)
Theorem categories_with_tags (context : APIContext)
    (posts : list Content.CollectionEntry) (i : nat)
    (r : Content.CollectionEntry) (ts : list string) :
  nth_error posts i = Some r ->
  Content.tags (Content.data r) = Some ts ->
  ts <> [] ->
  exists e,
    nth_error (Rss.items (feed context posts)) i = Some e
    /\ Js.prop "categories" e =
       Some (Js.arr (Js.of_opt (Content.category (Content.data r))
                     :: map Js.str ts)).
Proof.
  intros Hr Hts _. exists (toItem r). split.
  - now apply item_at.
  - unfold toItem; simpl. now rewrite Hts.
Qed.

Lemma categories_with_tags_witness :
  exists e,
    nth_error
      (Rss.items (feed Samples.production [Samples.postA; Samples.postB])) 0
    = Some e
    /\ Js.prop "categories" e =
       Some (Js.arr [Js.str "Python"; Js.str "x"; Js.str "y"]).
Proof.
  apply (categories_with_tags Samples.production
           [Samples.postA; Samples.postB] 0 Samples.postA ["x"; "y"]).
  - reflexivity.
  - reflexivity.
  - discriminate.
Defined.

(** C2: a record without tags, and likewise a record whose tag list is
    empty, yields the entry whose [categories] is the one-element array
    holding the record's category. *)
Theorem categories_without_tags (context : APIContext)
    (posts : list Content.CollectionEntry) (i : nat)
    (r : Content.CollectionEntry) :
  nth_error posts i = Some r ->
  Content.tags (Content.data r) = None
  \/ Content.tags (Content.data r) = Some [] ->
  exists e,
    nth_error (Rss.items (feed context posts)) i = Some e
    /\ Js.prop "categories" e =
       Some (Js.arr [Js.of_opt (Content.category (Content.data r))]).
Proof.
  intros Hr Hts. exists (toItem r). split.
  - now apply item_at.
  - unfold toItem; simpl. destruct Hts as [-> | ->]; reflexivity.
Qed.

Lemma categories_without_tags_witness :
  (exists e,
     nth_error
       (Rss.items (feed Samples.production [Samples.postA; Samples.postB])) 1
     = Some e
     /\ Js.prop "categories" e = Some (Js.arr [Js.str "JS"]))
  /\ (exists e,
        nth_error (Rss.items (feed Samples.production [Samples.untagged])) 0
        = Some e
        /\ Js.prop "categories" e = Some (Js.arr [Js.str "JS"])).
Proof.
  split.
  - apply (categories_without_tags Samples.production
             [Samples.postA; Samples.postB] 1 Samples.postB).
    + reflexivity.
    + left; reflexivity.
  - apply (categories_without_tags Samples.production
             [Samples.untagged] 0 Samples.untagged).
    + reflexivity.
    + right; reflexivity.
Defined.

(** ** Fields of an item *)

(** C3, as stated, fails: the entry of the threading post carries an
    [author] property, which is not among the six listed fields. *)
Lemma listed_fields_miss_author :
  exists e,
    nth_error (Rss.items (feed Samples.production [Samples.threading])) 0
    = Some e
    /\ Js.prop "author" e = Some (Js.str "Md hamim")
    /\ ~ (forall k, In k (Js.keys e) <-> In k listed_fields).
Proof.
  exists (toItem Samples.threading). repeat split.
  intros H. destruct (H "author") as [Hin _].
  assert (Hk : In "author" listed_fields).
  { apply Hin. unfold Js.keys, toItem; simpl. tauto. }
  unfold listed_fields in Hk; simpl in Hk.
  repeat (destruct Hk as [Hk | Hk]; [discriminate Hk |]). exact Hk.
Qed.

(** C3, amended: every entry consists of exactly seven properties, the six
    listed ones and [author], each once and in the order of the object
    literal; the six listed ones and [author] are projected from the
    record the entry is derived from. *)
Theorem item_has_seven_fields (context : APIContext)
    (posts : list Content.CollectionEntry) :
  Forall (fun e => Js.keys e = item_fields /\ NoDup (Js.keys e))
         (Rss.items (feed context posts))
  /\ Forall2
       (fun r e =>
          Js.prop "title" e = Some (Js.str (Content.title (Content.data r)))
          /\ Js.prop "pubDate" e
             = Some (Js.date (Content.published (Content.data r)))
          /\ Js.prop "description" e
             = Some (Js.str (Content.description (Content.data r)))
          /\ Js.prop "category" e
             = Some (Js.of_opt (Content.category (Content.data r)))
          /\ Js.prop "author" e
             = Some (Js.of_opt (Content.author (Content.data r))))
       posts (Rss.items (feed context posts)).
Proof.
  unfold feed; simpl. split.
  - apply Forall_map, Forall_forall. intros r _. split; [reflexivity |].
    unfold Js.keys, toItem; simpl.
    repeat (constructor; [simpl; intuition discriminate |]). constructor.
  - induction posts as [| r posts IH]; simpl; constructor.
    + unfold toItem; simpl. repeat split.
    + exact IH.
Qed.

(** ** Feed-level metadata *)

(** C4, as stated, fails for [site]: no literal is the [site] of every
    feed, since a production request and a preview request get different
    ones. *)
Lemma site_is_no_literal :
  Rss.site (feed Samples.production []) = "https://seracoder.com"
  /\ Rss.site (feed Samples.preview []) = "http://localhost:4321"
  /\ ~ (exists s, forall context posts, Rss.site (feed context posts) = s).
Proof.
  repeat split. intros [s Hs].
  pose proof (Hs Samples.production []) as H1.
  pose proof (Hs Samples.preview []) as H2.
  simpl in H1, H2. congruence.
Qed.

(** C4, amended: [title] and [description] of the feed are the literal
    ["a"] whatever the request and the posts are, and differ from the
    title and description of the site configuration; [site] is the [site]
    of the request context. *)
Theorem feed_metadata (context : APIContext)
    (posts : list Content.CollectionEntry) :
  Rss.title (feed context posts) = "a"
  /\ Rss.description (feed context posts) = "a"
  /\ Rss.site (feed context posts) = site context
  /\ Rss.title (feed context posts) <> Config.title Config.YukinaConfig
  /\ Rss.description (feed context posts)
     <> Config.description Config.YukinaConfig.
Proof. simpl. repeat split; discriminate. Qed.

(** ** Links *)

(** C5: the [link] of the entry produced for a record is ["/posts/"]
    followed by the record's [id]. *)
Theorem link_is_posts_id (context : APIContext)
    (posts : list Content.CollectionEntry) (i : nat)
    (r : Content.CollectionEntry) :
  nth_error posts i = Some r ->
  exists e,
    nth_error (Rss.items (feed context posts)) i = Some e
    /\ Js.prop "link" e = Some (Js.str ("/posts/" ++ Content.id r)).
Proof.
  intros Hr. exists (toItem r). split; [now apply item_at | reflexivity].
Qed.

Lemma link_is_posts_id_witness :
  exists e,
    nth_error
      (Rss.items (feed Samples.production
                       [Samples.threading; Samples.rapidoc])) 1
    = Some e
    /\ Js.prop "link" e =
       Some (Js.str
         "/posts/adding-rapidoc-documentation-to-your-fastapi-application").
Proof.
  apply (link_is_posts_id Samples.production
           [Samples.threading; Samples.rapidoc] 1 Samples.rapidoc).
  reflexivity.
Defined.

(** ** One entry per record, in input order *)

(** C6: the feed has exactly one entry per record: as many entries as
    the collection has records, none for the empty collection, and the
    entry at each position is the one derived from the record at that
    position, carrying that record's id in its link and its title, date
    and description.  No record is filtered out or duplicated: for every
    id, the feed has as many entries linking to that post as the
    collection has records with that id. *)
Theorem one_item_per_post (context : APIContext)
    (posts : list Content.CollectionEntry) :
  length (Rss.items (feed context posts)) = length posts
  /\ Rss.items (feed context []) = []
  /\ (forall i, nth_error (Rss.items (feed context posts)) i = None
                <-> nth_error posts i = None)
  /\ Forall2
       (fun r e =>
          e = toItem r
          /\ Js.prop "link" e = Some (Js.str ("/posts/" ++ Content.id r))
          /\ Js.prop "title" e = Some (Js.str (Content.title (Content.data r)))
          /\ Js.prop "pubDate" e
             = Some (Js.date (Content.published (Content.data r)))
          /\ Js.prop "description" e
             = Some (Js.str (Content.description (Content.data r))))
       posts (Rss.items (feed context posts))
  /\ (forall x,
        length (filter (links_to x) (Rss.items (feed context posts)))
        = length (filter (fun r => String.eqb (Content.id r) x) posts)).
Proof.
  split; [| split; [| split; [| split]]].
  - unfold feed; simpl. apply length_map.
  - reflexivity.
  - intros i. rewrite items_nth.
    destruct (nth_error posts i); simpl; split; congruence.
  - unfold feed; simpl.
    induction posts as [| r posts IH]; simpl; constructor; [| exact IH].
    unfold toItem; simpl. repeat split.
  - intros x. unfold feed; simpl.
    induction posts as [| r posts IH]; simpl; [reflexivity |].
    assert (Hr : links_to x (toItem r) = String.eqb (Content.id r) x)
      by reflexivity.
    rewrite Hr. destruct (String.eqb (Content.id r) x); simpl; congruence.
Qed.

(** C7: the entry at each position is the one derived from the record at
    that position, so the links of the feed list the record ids in input
    order, whatever the dates and titles are. *)
Theorem items_in_input_order (context : APIContext)
    (posts : list Content.CollectionEntry) :
  (forall i, nth_error (Rss.items (feed context posts)) i
             = option_map toItem (nth_error posts i))
  /\ map (Js.prop "link") (Rss.items (feed context posts))
     = map (fun r => Some (Js.str ("/posts/" ++ Content.id r))) posts
  /\ map (Js.prop "pubDate") (Rss.items (feed context posts))
     = map (fun r => Some (Js.date (Content.published (Content.data r))))
           posts
  /\ map (Js.prop "title") (Rss.items (feed context posts))
     = map (fun r => Some (Js.str (Content.title (Content.data r)))) posts.
Proof.
  split; [intros i; apply items_nth |].
  unfold feed; simpl. rewrite !map_map. repeat split.
Qed.

(** ** Malformed records *)



(** ** Determinism *)

(** C9: two invocations of [GET] in a row, for the same request, answer
    with the same response, the one built from the same feed document,
    and the content store is as it was before. *)
Theorem GET_twice_same_feed (Response : Type)
    (rss : Rss.RSSOptions -> Response) (context : APIContext)
    (st : Content.Store) :
  runState (first <- GET Response rss context ;;
            second <- GET Response rss context ;;
            ret (first, second)) st
  = ((rss (feed context (Content.collections st "posts")),
      rss (feed context (Content.collections st "posts"))), st).
Proof. reflexivity. Qed.

(** ** Fields the feed does not read *)

Lemma toItem_ignores_draft_cover (p q : Content.CollectionEntry) :
  same_but_draft_cover p q -> toItem p = toItem q.
Proof.
  intros (Hid & Ht & Hp & Hd & Htags & Hc & Ha).
  unfold toItem. cbv zeta. now rewrite Hid, Ht, Hp, Hd, Htags, Hc, Ha.
Qed.

(** C10: two collections whose records differ at most in [draft] and
    [cover] give the same feed document, and a record marked as a draft
    has its entry in the feed like any other. *)
Theorem feed_ignores_draft_and_cover (context : APIContext)
    (ps qs : list Content.CollectionEntry) :
  Forall2 same_but_draft_cover ps qs ->
  feed context ps = feed context qs
  /\ (forall r, In r ps -> Content.draft (Content.data r) = true ->
                In (toItem r) (Rss.items (feed context ps))).
Proof.
  intros H. split.
  - unfold feed. f_equal.
    induction H as [| p q ps qs Hpq _ IH]; simpl; [reflexivity |].
    now rewrite (toItem_ignores_draft_cover p q Hpq), IH.
  - intros r Hr _. unfold feed; simpl. now apply in_map.
Qed.

Lemma feed_ignores_draft_and_cover_witness :
  feed Samples.production [Samples.postA_draft; Samples.postB]
  = feed Samples.production [Samples.postA; Samples.postB]
  /\ (forall r, In r [Samples.postA_draft; Samples.postB] ->
                Content.draft (Content.data r) = true ->
                In (toItem r)
                   (Rss.items (feed Samples.production
                                    [Samples.postA_draft; Samples.postB]))).
Proof.
  apply (feed_ignores_draft_and_cover Samples.production
           [Samples.postA_draft; Samples.postB]
           [Samples.postA; Samples.postB]).
  repeat constructor.
Defined.

(** ** Further properties of the endpoint *)

(** X1: the response of [GET] depends on the store only through the
    "posts" collection: two stores that hold the same posts give the same
    response, whatever else they hold. *)
Theorem GET_reads_only_posts (Response : Type)
    (rss : Rss.RSSOptions -> Response) (context : APIContext)
    (st1 st2 : Content.Store) :
  Content.collections st1 "posts" = Content.collections st2 "posts" ->
  fst (runState (GET Response rss context) st1)
  = fst (runState (GET Response rss context) st2).
Proof. intros H. rewrite !GET_run. simpl. now rewrite H. Qed.

Lemma GET_reads_only_posts_witness :
  fst (runState (GET Rss.RSSOptions (fun options => options)
                     Samples.production)
                MoreSamples.store_with_pages)
  = fst (runState (GET Rss.RSSOptions (fun options => options)
                       Samples.production)
                  (Samples.store [Samples.postA; Samples.postB])).
Proof.
  apply (GET_reads_only_posts Rss.RSSOptions (fun options => options)
           Samples.production MoreSamples.store_with_pages
           (Samples.store [Samples.postA; Samples.postB])).
  reflexivity.
Defined.

(** X2: in every entry of the feed, [categories] is a non-empty array
    whose first element is the value of the entry's own [category]
    property. *)
Theorem categories_start_with_category (context : APIContext)
    (posts : list Content.CollectionEntry) :
  Forall (fun e => exists c rest,
            Js.prop "category" e = Some c
            /\ Js.prop "categories" e = Some (Js.arr (c :: rest)))
         (Rss.items (feed context posts)).
Proof.
  unfold feed; simpl. apply Forall_map, Forall_forall. intros r _.
  exists (Js.of_opt (Content.category (Content.data r))).
  unfold toItem; simpl.
  destruct (Content.tags (Content.data r)) as [ts |].
  - exists (map Js.str ts). now split.
  - exists []. now split.
Qed.

(** X3: when the ids of the records are pairwise distinct, so are the
    links of the feed entries. *)
Theorem distinct_ids_distinct_links (context : APIContext)
    (posts : list Content.CollectionEntry) :
  NoDup (map Content.id posts) ->
  NoDup (map (Js.prop "link") (Rss.items (feed context posts))).
Proof.
  unfold feed; simpl. rewrite map_map.
  induction posts as [| r posts IH]; simpl; intros H.
  - constructor.
  - inversion H as [| x l Hnotin Hnodup]; subst. constructor.
    + intros Hin. apply Hnotin.
      apply in_map_iff in Hin. destruct Hin as (r' & Heq & Hr').
      apply in_map_iff. exists r'. split; [| exact Hr'].
      unfold toItem in Heq; simpl in Heq. now injection Heq.
    + now apply IH.
Qed.

Lemma distinct_ids_distinct_links_witness :
  NoDup (map (Js.prop "link")
             (Rss.items (feed Samples.production
                              [Samples.threading; Samples.rapidoc]))).
Proof.
  apply (distinct_ids_distinct_links Samples.production
           [Samples.threading; Samples.rapidoc]).
  simpl. repeat (constructor; [simpl; intuition discriminate |]).
  constructor.
Defined.

(** X4: the [categories] of the entry of a record has one element more
    than the record has tags, and holds [undefined] exactly when the
    record has no category: with a category, every element is a string. *)
Theorem categories_undefined_iff_no_category (context : APIContext)
    (posts : list Content.CollectionEntry) :
  Forall2
    (fun r e => exists elems,
       Js.prop "categories" e = Some (Js.arr elems)
       /\ length elems = S (length (tag_list r))
       /\ (In Js.undefined elems
           <-> Content.category (Content.data r) = None)
       /\ (forall c, Content.category (Content.data r) = Some c ->
                     elems = map Js.str (c :: tag_list r)))
    posts (Rss.items (feed context posts)).
Proof.
  unfold feed; simpl.
  induction posts as [| r posts IH]; simpl; constructor; [| exact IH].
  exists (Js.of_opt (Content.category (Content.data r))
          :: map Js.str (tag_list r)).
  unfold toItem, tag_list; simpl. repeat split.
  - now destruct (Content.tags (Content.data r)).
  - simpl. now rewrite length_map.
  - intros [Hc | Hin].
    + now destruct (Content.category (Content.data r)).
    + apply in_map_iff in Hin. now destruct Hin as (t & Ht & _).
  - intros ->. now left.
  - now intros c ->.
Qed.

Lemma map_str_inj (xs ys : list string) :
  map Js.str xs = map Js.str ys -> xs = ys.
Proof.
  revert ys. induction xs as [| x xs IH]; intros [| y ys] H;
    simpl in H; try discriminate; [reflexivity |].
  injection H as Hx Hxs. f_equal; [exact Hx | now apply IH].
Qed.

Lemma of_opt_inj (x y : option string) : Js.of_opt x = Js.of_opt y -> x = y.
Proof. destruct x, y; simpl; intros H; congruence. Qed.

Lemma toItem_eq_iff (p q : Content.CollectionEntry) :
  toItem p = toItem q <-> same_in_feed p q.
Proof.
  destruct p as [pid [pt pp pd ptags pc pa pdr pcv]].
  destruct q as [qid [qt qp qd qtags qc qa qdr qcv]].
  unfold toItem, same_in_feed, tag_list; simpl. split.
  - intros H. injection H as Ht Hp Hid Hd Hc Ha Hcats.
    apply of_opt_inj in Hc, Ha. subst. repeat split.
    destruct ptags as [ps |], qtags as [qs |]; [| | | reflexivity];
      injection Hcats as Hcats.
    + now apply map_str_inj.
    + now apply (map_str_inj ps []).
    + now apply (map_str_inj [] qs).
  - intros (Hid & Ht & Hp & Hd & Htags & Hc & Ha). subst.
    destruct ptags as [ps |], qtags as [qs |]; subst; reflexivity.
Qed.

(** X5: two collections give the same feed for a request exactly when
    they have the same length and their records agree, position by
    position, on id, title, publication date, description, category,
    author and tags, an absent tag list counting as an empty one. *)
Theorem feed_eq_iff (context : APIContext)
    (ps qs : list Content.CollectionEntry) :
  feed context ps = feed context qs <-> Forall2 same_in_feed ps qs.
Proof.
  split.
  - intros H. apply (f_equal Rss.items) in H. simpl in H.
    revert qs H. induction ps as [| p ps IH]; intros [| q qs] H;
      cbn [map] in H; try discriminate; constructor.
    + apply toItem_eq_iff. exact (f_equal (hd []) H).
    + apply IH. exact (f_equal (@tl _) H).
  - intros H. unfold feed. f_equal.
    induction H as [| p q ps qs Hpq _ IH]; simpl; [reflexivity |].
    apply toItem_eq_iff in Hpq. now rewrite Hpq, IH.
Qed.

(** X6: tags are not de-duplicated against the category: when the
    category of a record is also one of its tags, the [categories] of its
    entry lists it twice. *)
Theorem category_among_tags_listed_twice (context : APIContext)
    (posts : list Content.CollectionEntry) (i : nat)
    (r : Content.CollectionEntry) (c : string) (ts : list string) :
  nth_error posts i = Some r ->
  Content.category (Content.data r) = Some c ->
  Content.tags (Content.data r) = Some ts ->
  In c ts ->
  exists e rest,
    nth_error (Rss.items (feed context posts)) i = Some e
    /\ Js.prop "categories" e = Some (Js.arr (Js.str c :: rest))
    /\ In (Js.str c) rest.
Proof.
  intros Hr Hc Hts Hin. exists (toItem r), (map Js.str ts). split.
  - now apply item_at.
  - unfold toItem; simpl. rewrite Hc, Hts. split; [reflexivity |].
    now apply in_map.
Qed.

Lemma category_among_tags_listed_twice_witness :
  exists e rest,
    nth_error
      (Rss.items (feed Samples.production [MoreSamples.tagged_twice])) 0
    = Some e
    /\ Js.prop "categories" e = Some (Js.arr (Js.str "Python" :: rest))
    /\ In (Js.str "Python") rest.
Proof.
  apply (category_among_tags_listed_twice Samples.production
           [MoreSamples.tagged_twice] 0 MoreSamples.tagged_twice
           "Python" ["Python"; "x"]).
  - reflexivity.
  - reflexivity.
  - reflexivity.
  - left; reflexivity.
Defined.
